(** * The property-based-testing notebook: [increment], [eq_roots] and their tests

    The notebook [bonus-2-property-based-testing.ipynb] holds four Python
    snippets: [increment] with its two tests, the test [test_eq_roots] and the
    stub [eq_roots].  This development embeds them in Rocq and proves what the
    specification says about them.

    Python is dynamically typed and resolves the free names of a function body
    when the body runs, so the embedding keeps both: values carry their type
    tag, operators dispatch on it, and a name that is not a parameter or an
    assigned local of its function is looked up in the module's globals and
    then in the builtins, raising [NameError] when neither binds it.  Python's
    [int] is unbounded and is modelled by [Z].  The values are those of the
    types [int], [bool], [NoneType], [ellipsis], [tuple], function and
    module, and opaque library objects; strings, lists and the like are not
    part of the embedding, and the numbers of other types ([float],
    [complex], [Decimal]) come in only as arguments of [increment].  As for
    the integers, memory is taken to suffice wherever CPython's own size
    checks pass. *)

From Stdlib Require Import PrimFloat.
From Stdlib Require Import ZArith Lia Reals Lra.
From stdpp Require Import base strings gmap list.

Local Open Scope Z_scope.

(** ** Values and exceptions *)

(** The functions the notebook defines with [def]; [assume] is the one
    function of the hypothesis library whose behaviour the text relies on. *)
Inductive func : Type :=
  | Fn_increment
  | Fn_eq_roots
  | Fn_assume.

#[warnings="-register-all"]
Inductive value : Type :=
  | VInt (n : Z)
  | VBool (b : bool)
  | VNone
  | VEllipsis
  | VTuple (items : list value)
  | VFunction (f : func)
  (** a module ([math], [st]): it can be bound to a name, not called *)
  | VModule (name : string)
  (** [given], a test function, a builtin function, class or singleton:
      an object that can be bound to a name, is equal to itself only, takes
      no part in arithmetic or ordering, and whose call is not embedded *)
  | VOpaque (name : string).

Inductive exn : Type :=
  | NameError (name : string)
  | TypeError
  | ValueError
  | AssertionError
  | OverflowError
  | MemoryError
  (** [decimal.InvalidOperation] *)
  | InvalidOperation
  (** raised by [assume] on a false condition, caught by [given] *)
  | UnsatisfiedAssumption.

(** How a computation ends.  [Unmodelled] marks a run that leaves the embedded
    fragment of Python: a call of a [VOpaque] object, a builtin whose value
    is a string, or an operation whose result is a float. *)
Inductive outcome (A : Type) : Type :=
  | Returned (a : A)
  | Raised (e : exn)
  | Unmodelled.
Arguments Returned {A} a.
Arguments Raised {A} e.
Arguments Unmodelled {A}.

(** ** The interpreter state and its monad *)

(** The only mutable state the snippets can see is the module's global
    name space. *)
Abbreviation env := (gmap string value).

Definition M (A : Type) : Type := env -> outcome A * env.

Definition ret {A} (a : A) : M A := fun g => (Returned a, g).

Definition raise {A} (e : exn) : M A := fun g => (Raised e, g).

Definition unmodelled {A} : M A := fun g => (Unmodelled, g).

#[global] Instance M_bind : MBind M := fun A B (k : A -> M B) (m : M A) g =>
  match m g with
  | (Returned a, g') => k a g'
  | (Raised e, g') => (Raised e, g')
  | (Unmodelled, g') => (Unmodelled, g')
  end.

(** ** Name resolution *)

(** The names of Python 3.6's [builtins] module (the kernel the notebook
    declares). *)
Definition builtin_names : list string :=
  [ "ArithmeticError"; "AssertionError"; "AttributeError"; "BaseException";
    "BlockingIOError"; "BrokenPipeError"; "BufferError"; "BytesWarning";
    "ChildProcessError"; "ConnectionAbortedError"; "ConnectionError";
    "ConnectionRefusedError"; "ConnectionResetError"; "DeprecationWarning";
    "EOFError"; "Ellipsis"; "EnvironmentError"; "Exception"; "False";
    "FileExistsError"; "FileNotFoundError"; "FloatingPointError";
    "FutureWarning"; "GeneratorExit"; "IOError"; "ImportError";
    "ImportWarning"; "IndentationError"; "IndexError"; "InterruptedError";
    "IsADirectoryError"; "KeyError"; "KeyboardInterrupt"; "LookupError";
    "MemoryError"; "ModuleNotFoundError"; "NameError"; "None";
    "NotADirectoryError"; "NotImplemented"; "NotImplementedError"; "OSError";
    "OverflowError"; "PendingDeprecationWarning"; "PermissionError";
    "ProcessLookupError"; "RecursionError"; "ReferenceError";
    "ResourceWarning"; "RuntimeError"; "RuntimeWarning";
    "StopAsyncIteration"; "StopIteration"; "SyntaxError"; "SyntaxWarning";
    "SystemError"; "SystemExit"; "TabError"; "TimeoutError"; "True";
    "TypeError"; "UnboundLocalError"; "UnicodeDecodeError";
    "UnicodeEncodeError"; "UnicodeError"; "UnicodeTranslateError";
    "UnicodeWarning"; "UserWarning"; "ValueError"; "Warning";
    "ZeroDivisionError"; "__build_class__"; "__debug__"; "__doc__";
    "__import__"; "__loader__"; "__name__"; "__package__"; "__spec__";
    "abs"; "all"; "any"; "ascii"; "bin"; "bool"; "bytearray"; "bytes";
    "callable"; "chr"; "classmethod"; "compile"; "complex"; "copyright";
    "credits"; "delattr"; "dict"; "dir"; "divmod"; "enumerate"; "eval";
    "exec"; "exit"; "filter"; "float"; "format"; "frozenset"; "getattr";
    "globals"; "hasattr"; "hash"; "help"; "hex"; "id"; "input"; "int";
    "isinstance"; "issubclass"; "iter"; "len"; "license"; "list"; "locals";
    "map"; "max"; "memoryview"; "min"; "next"; "object"; "oct"; "open";
    "ord"; "pow"; "print"; "property"; "quit"; "range"; "repr"; "reversed";
    "round"; "set"; "setattr"; "slice"; "sorted"; "staticmethod"; "str";
    "sum"; "super"; "tuple"; "type"; "vars"; "zip" ]%string.

Definition is_builtin (name : string) : bool :=
  bool_decide (name ∈ builtin_names).

(** What a builtin name holds.  The constants are values of the embedding,
    [__debug__] being [True] in an interpreter that keeps [assert]
    statements; [EnvironmentError] and [IOError] are other names of the class
    [OSError]; the other functions, classes and singletons are opaque
    objects.  [__doc__], [__name__] and [__package__] hold strings, which
    the embedding does not have. *)
Definition builtin_value (name : string) : option value :=
  if String.eqb name "None" then Some VNone
  else if String.eqb name "True" then Some (VBool true)
  else if String.eqb name "False" then Some (VBool false)
  else if String.eqb name "Ellipsis" then Some VEllipsis
  else if String.eqb name "__debug__" then Some (VBool true)
  else if String.eqb name "EnvironmentError" then Some (VOpaque "OSError")
  else if String.eqb name "IOError" then Some (VOpaque "OSError")
  else if String.eqb name "__doc__" then None
  else if String.eqb name "__name__" then None
  else if String.eqb name "__package__" then None
  else Some (VOpaque name).

(** [LOAD_GLOBAL]: the module's globals first, then the builtins. *)
Definition load_global (name : string) : M value :=
  fun g =>
    match g !! name with
    | Some v => (Returned v, g)
    | None =>
        if is_builtin name then
          match builtin_value name with
          | Some v => (Returned v, g)
          | None => (Unmodelled, g)
          end
        else (Raised (NameError name), g)
    end.

(** [STORE_GLOBAL]: what [def], [import] and a module-level assignment do. *)
Definition store_global (name : string) (v : value) : M unit :=
  fun g => (Returned tt, <[name := v]> g).

(** ** Operators *)

(** [bool] is a subclass of [int]: both take part in integer arithmetic. *)
Definition as_int (v : value) : option Z :=
  match v with
  | VInt n => Some n
  | VBool b => Some (if b then 1 else 0)
  | _ => None
  end.

(** The numbers among the values: [int] and [bool]. *)
Definition is_numeric (v : value) : bool :=
  match as_int v with Some _ => true | None => false end.

Definition is_tuple (v : value) : bool :=
  match v with VTuple _ => true | _ => false end.

(** [x + y]: integer addition, or concatenation of two tuples. *)
Definition py_add (x y : value) : M value :=
  match as_int x, as_int y with
  | Some a, Some b => ret (VInt (a + b))
  | _, _ =>
      match x, y with
      | VTuple xs, VTuple ys => ret (VTuple (xs ++ ys))
      | _, _ => raise TypeError
      end
  end.

(** [x - y]: defined on the integer types only. *)
Definition py_sub (x y : value) : M value :=
  match as_int x, as_int y with
  | Some a, Some b => ret (VInt (a - b))
  | _, _ => raise TypeError
  end.

(** A tuple repeated [n] times; no item at all when [n <= 0]. *)
Definition tuple_repeat (xs : list value) (n : Z) : list value :=
  mjoin (replicate (Z.to_nat n) xs).

(** [PY_SSIZE_T_MAX] of a 64-bit CPython. *)
Definition py_ssize_t_max : Z := 2 ^ 63 - 1.

(** The repetition of a tuple by an integer, as CPython does it: the count
    must fit an index ([OverflowError] otherwise) and counts as [0] when
    negative; an empty tuple, or a count of [1], gives the tuple back; a
    result of more items than the two size checks on the way allow, the one
    of the repetition and the one of the allocation of a tuple (header of
    32 bytes, 8 bytes an item), is a [MemoryError]. *)
Definition py_tuple_repeat (xs : list value) (n : Z) : M value :=
  if (n <? - 2 ^ 63) || (py_ssize_t_max <? n) then raise OverflowError
  else
    let count := Z.max n 0 in
    let len := Z.of_nat (length xs) in
    if (len =? 0) || (count =? 1) then ret (VTuple xs)
    else if py_ssize_t_max / len <? count then raise MemoryError
    else if (py_ssize_t_max - 32 - 8) / 8 <? len * count then
      raise MemoryError
    else ret (VTuple (tuple_repeat xs count)).

(** [x * y]: integer product, or repetition of a tuple by an integer. *)
Definition py_mul (x y : value) : M value :=
  match as_int x, as_int y with
  | Some a, Some b => ret (VInt (a * b))
  | Some a, None =>
      match y with
      | VTuple ys => py_tuple_repeat ys a
      | _ => raise TypeError
      end
  | None, Some b =>
      match x with
      | VTuple xs => py_tuple_repeat xs b
      | _ => raise TypeError
      end
  | None, None => raise TypeError
  end.

(** [x ** y]: an integer for a non-negative exponent.  A negative exponent
    gives a float (or [ZeroDivisionError]), outside the embedding. *)
Definition py_pow (x y : value) : M value :=
  match as_int x, as_int y with
  | Some a, Some b => if 0 <=? b then ret (VInt (a ^ b)) else unmodelled
  | _, _ => raise TypeError
  end.

(** [x == y] never raises on these values: numbers compare by value, tuples
    item by item, every other object by identity. *)
Fixpoint py_eqb (x y : value) : bool :=
  match x, y with
  | VTuple xs, VTuple ys =>
      (fix all2 (xs ys : list value) {struct xs} : bool :=
         match xs, ys with
         | [], [] => true
         | x :: xs, y :: ys => py_eqb x y && all2 xs ys
         | _, _ => false
         end) xs ys
  | VNone, VNone => true
  | VEllipsis, VEllipsis => true
  | VFunction f, VFunction f' =>
      match f, f' with
      | Fn_increment, Fn_increment => true
      | Fn_eq_roots, Fn_eq_roots => true
      | Fn_assume, Fn_assume => true
      | _, _ => false
      end
  | VModule m, VModule m' => String.eqb m m'
  | VOpaque o, VOpaque o' => String.eqb o o'
  | _, _ =>
      match as_int x, as_int y with
      | Some a, Some b => a =? b
      | _, _ => false
      end
  end.

Definition py_eq (x y : value) : M value := ret (VBool (py_eqb x y)).

(** [x >= y]: on integers their order; on tuples the order of the first pair
    of items that differ, or of the lengths when there is none; [None] stands
    for the [TypeError] of every other pair. *)
Fixpoint py_geb (x y : value) : option bool :=
  match x, y with
  | VTuple xs, VTuple ys =>
      (fix lex (xs ys : list value) {struct xs} : option bool :=
         match xs, ys with
         | [], [] => Some true
         | [], _ :: _ => Some false
         | _ :: _, [] => Some true
         | x :: xs, y :: ys => if py_eqb x y then lex xs ys else py_geb x y
         end) xs ys
  | _, _ =>
      match as_int x, as_int y with
      | Some a, Some b => Some (a >=? b)
      | _, _ => None
      end
  end.

Definition py_ge (x y : value) : M value :=
  match py_geb x y with
  | Some t => ret (VBool t)
  | None => raise TypeError
  end.

(** Truth value of an object, as [assert], [if] and [not] take it. *)
Definition truthy (v : value) : bool :=
  match v with
  | VInt n => negb (n =? 0)
  | VBool b => b
  | VNone => false
  | VTuple [] => false
  | _ => true
  end.

(** [assert v] *)
Definition py_assert (v : value) : M unit :=
  if truthy v then ret tt else raise AssertionError.

(** [x, y = v]: [v] must be a sequence of exactly two items. *)
Definition unpack2 (v : value) : M (value * value) :=
  match v with
  | VTuple [x; y] => ret (x, y)
  | VTuple _ => raise ValueError
  | _ => raise TypeError
  end.

(** ** The functions of the notebook *)

(** [[
    def increment(x):
        return x + 1
    ]] *)
Definition increment (x : value) : M value :=
  py_add x (VInt 1).

(** [[
    def eq_roots(coefficients):
        ...

        return root1, root2
    ]]
    Its docstring reads: Returns the non-complex roots of a quadratic
    equation.  After the docstring, the body is the expression statement
    [...], which evaluates the constant [Ellipsis] and drops it.  No statement of the function assigns [root1] or
    [root2], so both are global names. *)
Definition eq_roots (coefficients : value) : M value :=
  _ ← ret VEllipsis;
  root1 ← load_global "root1";
  root2 ← load_global "root2";
  ret (VTuple [root1; root2]).

(** [hypothesis.assume], which the test snippet imports:
    [[
    def assume(condition):
        if not condition:
            raise UnsatisfiedAssumption()
        return True
    ]] *)
Definition assume (condition : value) : M value :=
  if negb (truthy condition) then raise UnsatisfiedAssumption
  else ret (VBool true).

(** A call [f(arg, ...)] whose callee and arguments are already evaluated. *)
Definition call (f : value) (args : list value) : M value :=
  match f with
  | VFunction fn =>
      match args with
      | [arg] =>
          match fn with
          | Fn_increment => increment arg
          | Fn_eq_roots => eq_roots arg
          | Fn_assume => assume arg
          end
      | _ => raise TypeError
      end
  | VOpaque _ => unmodelled
  | _ => raise TypeError
  end.

(** ** The tests of the notebook *)

(** The test of one hand-picked value:
    [[
    def test_increment():
        x = 10  # We've only tested one value here.
        assert increment(x) - 1 == x
    ]]
    The notebook defines [test_increment] twice; this is the first. *)
Definition test_increment_example : M value :=
  let x := VInt 10 in
  f ← load_global "increment";
  y ← call f [x];
  d ← py_sub y (VInt 1);
  t ← py_eq d x;
  _ ← py_assert t;
  ret VNone.

(** The property-based test, run by [given] on each generated [x]:
    [[
    @given(st.integers())  # We are going to test a wide range of integers.
    def test_increment(x):
        assert increment(x) - 1 == x
    ]] *)
Definition test_increment (x : value) : M value :=
  f ← load_global "increment";
  y ← call f [x];
  d ← py_sub y (VInt 1);
  t ← py_eq d x;
  _ ← py_assert t;
  ret VNone.

(** The test of [eq_roots], statement by statement:
    [[
    @given(st.integers(), st.integers(), st.integers())
    def test_eq_roots(a, b, c):
        # assumption here can mirror the assertion in
        # the original function definition
        discriminant = b**2 - 4*a*c
        # Uncomment the following line.
        # assume(discriminant...)
        r1, r2 = eq_roots(coefficients)
        assert r1 >= r2
    ]] *)

(** [b**2 - 4*a*c], the right-hand side of the first assignment. *)
Definition test_eq_roots_discriminant (a b c : value) : M value :=
  b2 ← py_pow b (VInt 2);
  a4 ← py_mul (VInt 4) a;
  ac4 ← py_mul a4 c;
  py_sub b2 ac4.

(** [r1, r2 = eq_roots(coefficients)]: the callee, then the argument, then
    the call and the unpacking of its result.  [coefficients] is no
    parameter and is assigned nowhere in the test: a global name. *)
Definition test_eq_roots_call : M (value * value) :=
  f ← load_global "eq_roots";
  coefficients ← load_global "coefficients";
  roots ← call f [coefficients];
  unpack2 roots.

(** [assert r1 >= r2] *)
Definition test_eq_roots_assert (r1 r2 : value) : M unit :=
  t ← py_ge r1 r2;
  py_assert t.

(** Everything the test does before its assertion; the line with [assume]
    is a comment and does nothing. *)
Definition test_eq_roots_setup (a b c : value) : M (value * value) :=
  discriminant ← test_eq_roots_discriminant a b c;
  test_eq_roots_call.

Definition test_eq_roots (a b c : value) : M value :=
  '(r1, r2) ← test_eq_roots_setup a b c;
  _ ← test_eq_roots_assert r1 r2;
  ret VNone.

(** The run of the test gets as far as its [assert] statement. *)
Definition assertion_reached (a b c : value) (g : env) : bool :=
  match test_eq_roots_setup a b c g with
  | (Returned _, _) => true
  | _ => false
  end.

(** The quadratic the notebook's text is about, [a x^2 + b x + c], at a
    real [x]. *)
Definition quadratic (a b c : Z) (x : R) : R :=
  (IZR a * x * x + IZR b * x + IZR c)%R.

(** ** The module and the test harness *)

(** The name space after the notebook's snippets ran from top to bottom, each
    [def] and [import] binding its name; the second [test_increment]
    replaces the first. *)
Definition notebook_module : M unit :=
  _ ← store_global "increment" (VFunction Fn_increment);
  _ ← store_global "test_increment" (VOpaque "test_increment");
  _ ← store_global "given" (VOpaque "given");
  _ ← store_global "st" (VModule "hypothesis.strategies");
  _ ← store_global "test_increment" (VOpaque "test_increment");
  _ ← store_global "assume" (VFunction Fn_assume);
  _ ← store_global "test_eq_roots" (VOpaque "test_eq_roots");
  _ ← store_global "math" (VModule "math");
  store_global "eq_roots" (VFunction Fn_eq_roots).

Definition notebook_globals : env := (notebook_module ∅).2.

(** A name space that a module could have built by binding, on top of the
    notebook's names, the three names the stubs read. *)
Definition bound_globals : env :=
  <["coefficients" := VTuple [VInt 1; VInt 0; VInt 1]]>
    (<["root1" := VInt 0]> (<["root2" := VInt 0]> notebook_globals)).

(** What [given] makes of one generated example: a test that returns passes,
    one stopped by [assume] is filtered out and does not count, any other
    exception is a failure. *)
Inductive verdict : Type :=
  | Passed
  | Filtered
  | Failed (e : exn)
  | Unknown.

Definition run_example (test : M value) (g : env) : verdict :=
  match test g with
  | (Returned _, _) => Passed
  | (Raised UnsatisfiedAssumption, _) => Filtered
  | (Raised e, _) => Failed e
  | (Unmodelled, _) => Unknown
  end.

(** [given(st.integers())] over the examples drawn: the first failure
    ends the test, filtered examples are skipped.  The health check by which
    Hypothesis fails a test that filters too many of its examples is not
    part of this. *)
Fixpoint given_integers (test : value -> M value) (examples : list Z)
    (g : env) : verdict :=
  match examples with
  | [] => Passed
  | x :: rest =>
      match run_example (test (VInt x)) g with
      | Passed | Filtered => given_integers test rest g
      | v => v
      end
  end.

(** ** [increment] on the numbers of other types *)

(** The values of [decimal.Decimal]: a sign, a coefficient and an exponent,
    an infinity, or a NaN that is quiet or signalling. *)
Inductive decimal : Type :=
  | DFinite (negative : bool) (coefficient : N) (exponent : Z)
  | DInfinity (negative : bool)
  | DNaN (signalling negative : bool) (payload : N).

(** Of the context of [decimal], the one setting an operation on a
    signalling NaN consults: whether [InvalidOperation] is trapped.  It is,
    in the default context, which the notebook never changes. *)
Record decimal_context : Type :=
  { traps_invalid_operation : bool }.

Definition default_context : decimal_context :=
  {| traps_invalid_operation := true |}.

(** An argument of [increment]: a value of the embedding, or a number of a
    type the operators above leave out, a [float] (an IEEE 754 double), a
    [complex] (two doubles) or a [Decimal]. *)
Inductive pyobject : Type :=
  | OValue (v : value)
  | OFloat (f : float)
  | OComplex (real imag : float)
  | ODecimal (d : decimal).

(** The numbers of Python's built-in types: [int], [bool], [float] and
    [complex]. *)
Definition is_builtin_number (x : pyobject) : bool :=
  match x with
  | OValue v => is_numeric v
  | OFloat _ | OComplex _ _ => true
  | ODecimal _ => false
  end.

(** The numbers: the built-in ones and [Decimal], which the library
    registers as a number. *)
Definition is_number (x : pyobject) : bool :=
  match x with
  | ODecimal _ => true
  | _ => is_builtin_number x
  end.

(** [increment], that is [x + 1], on any argument.  On a value of the
    embedding it is [increment] above.  A [float] adds the double [1.0]; a
    [complex] adds [1.0] to its real part and [0.0] to its imaginary part.
    A [Decimal] that is a signalling NaN raises [InvalidOperation] where the
    context traps it; the rest of [Decimal]'s arithmetic, which rounds to
    the context's precision and sets its flags, is not embedded. *)
Definition increment_object (ctx : decimal_context) (x : pyobject)
    : M pyobject :=
  match x with
  | OValue v => y ← increment v; ret (OValue y)
  | OFloat f => ret (OFloat (f + 1)%float)
  | OComplex re im => ret (OComplex (re + 1)%float (im + 0)%float)
  | ODecimal (DNaN true _ _) =>
      if traps_invalid_operation ctx then raise InvalidOperation
      else unmodelled
  | ODecimal _ => unmodelled
  end.

(** The exceptions a product can raise: [TypeError], and where a tuple is
    repeated also [OverflowError] and [MemoryError]. *)
Definition mul_error (x y : value) (e : exn) : Prop :=
  e = TypeError \/
  (is_tuple x || is_tuple y = true /\ (e = OverflowError \/ e = MemoryError)).

(** ** Compositions and the formula of the text *)

(** [n] calls of [increment], each on the result of the one before:
    [increment(increment(... increment(x)))]. *)
Fixpoint increment_times (n : nat) (x : value) : M value :=
  match n with
  | O => ret x
  | S n' => y ← increment x; increment_times n' y
  end.

(** The formula the notebook prints for the roots, as it prints it:
    [(-a +- sqrt(b^2 - 4ac)) / (2a)], with [-a] in the numerator.
    [plus] picks the sign. *)
Definition printed_root (a b c : Z) (plus : bool) : R :=
  let s := sqrt (IZR (b * b - 4 * a * c)) in
  ((- IZR a + (if plus then s else - s)) / (2 * IZR a))%R.

(** * Properties *)

(** ** Running the monad *)

Lemma bind_run {A B} (m : M A) (k : A -> M B) (g : env) :
  (m ≫= k) g =
  match m g with
  | (Returned a, g') => k a g'
  | (Raised e, g') => (Raised e, g')
  | (Unmodelled, g') => (Unmodelled, g')
  end.
Proof. reflexivity. Qed.

Lemma bind_returned {A B} (m : M A) (k : A -> M B) g a g' :
  m g = (Returned a, g') -> (m ≫= k) g = k a g'.
Proof. intros Hm. rewrite bind_run, Hm. reflexivity. Qed.

Lemma bind_raised {A B} (m : M A) (k : A -> M B) g e g' :
  m g = (Raised e, g') -> (m ≫= k) g = (Raised e, g').
Proof. intros Hm. rewrite bind_run, Hm. reflexivity. Qed.

(** Runs the binds of a goal as far as their left operands compute. *)
Ltac py_run := repeat (rewrite bind_run; cbn).

(** ** Name resolution *)

Section Resolution.
Variable g : env.

Lemma load_global_bound name v :
  g !! name = Some v -> load_global name g = (Returned v, g).
Proof. intros Hg. unfold load_global. rewrite Hg. reflexivity. Qed.

Lemma load_global_unbound name :
  g !! name = None -> is_builtin name = false ->
  load_global name g = (Raised (NameError name), g).
Proof. intros Hg Hb. unfold load_global. rewrite Hg, Hb. reflexivity. Qed.

(** Reading a name never writes the name space. *)
Lemma load_global_store name : (load_global name g).2 = g.
Proof.
  unfold load_global.
  destruct (g !! name); [reflexivity |].
  destruct (is_builtin name); [| reflexivity].
  destruct (builtin_value name); reflexivity.
Qed.

(** A name raises [NameError] exactly when neither the module nor the
    builtins bind it. *)
Lemma load_global_name_error name :
  load_global name g = (Raised (NameError name), g) <->
  g !! name = None /\ is_builtin name = false.
Proof.
  unfold load_global. split.
  - destruct (g !! name) as [w|]; [discriminate |].
    destruct (is_builtin name); [| split; reflexivity].
    destruct (builtin_value name); discriminate.
  - intros [-> ->]. reflexivity.
Qed.
End Resolution.

(** The names the two stubs need are bound by no snippet of the notebook
    and are no builtins. *)
Lemma notebook_unbound name :
  name ∈ ["root1"; "root2"; "coefficients"]%string ->
  notebook_globals !! name = None /\ is_builtin name = false.
Proof.
  rewrite !elem_of_cons, elem_of_nil.
  intros [-> | [-> | [-> | []]]]; split; reflexivity.
Qed.

Lemma notebook_binds_functions :
  notebook_globals !! "increment"%string = Some (VFunction Fn_increment) /\
  notebook_globals !! "eq_roots"%string = Some (VFunction Fn_eq_roots).
Proof. split; reflexivity. Qed.

(** ** [increment] *)

Lemma as_int_numeric v : is_numeric v = true -> exists n, as_int v = Some n.
Proof. unfold is_numeric. destruct (as_int v) as [n|]; [eauto | discriminate]. Qed.

Lemma increment_numeric x n g :
  as_int x = Some n -> increment x g = (Returned (VInt (n + 1)), g).
Proof. intros Hx. unfold increment, py_add. rewrite Hx. reflexivity. Qed.

(** Whatever its argument, [increment] hands the name space back as it got
    it: the function neither binds nor rebinds a global. *)
Lemma increment_store x g : (increment x g).2 = g.
Proof.
  unfold increment, py_add.
  destruct (as_int x); [reflexivity |].
  destruct x; reflexivity.
Qed.

(** On [None] [increment] raises, as Python's [+] does. *)
Example increment_none g : increment VNone g = (Raised TypeError, g).
Proof. reflexivity. Qed.

Lemma test_increment_bound x g :
  g !! "increment"%string = Some (VFunction Fn_increment) ->
  test_increment x g =
  (y ← increment x; d ← py_sub y (VInt 1); t ← py_eq d x;
   _ ← py_assert t; ret VNone) g.
Proof.
  intros Hg. unfold test_increment.
  rewrite (bind_returned _ _ g _ g (load_global_bound g _ _ Hg)).
  reflexivity.
Qed.

Lemma test_increment_int x g :
  g !! "increment"%string = Some (VFunction Fn_increment) ->
  test_increment (VInt x) g = (Returned VNone, g).
Proof.
  intros Hg. rewrite (test_increment_bound _ _ Hg).
  rewrite (bind_returned _ _ g _ g (increment_numeric (VInt x) x g eq_refl)).
  unfold py_sub, py_eq, ret. py_run.
  replace (x + 1 - 1) with x by lia. rewrite Z.eqb_refl. py_run. reflexivity.
Qed.

(** ** [eq_roots] and its test *)

Lemma eq_roots_unbound_root1 coefficients g :
  g !! "root1"%string = None ->
  eq_roots coefficients g = (Raised (NameError "root1"), g).
Proof.
  intros Hg. unfold eq_roots. rewrite bind_run. cbn.
  apply bind_raised, load_global_unbound; [exact Hg | reflexivity].
Qed.

(** Were both names bound, the stub would hand back whatever they hold,
    without a look at its argument. *)
Lemma eq_roots_bound coefficients g v1 v2 :
  g !! "root1"%string = Some v1 -> g !! "root2"%string = Some v2 ->
  eq_roots coefficients g = (Returned (VTuple [v1; v2]), g).
Proof.
  intros H1 H2. unfold eq_roots. rewrite bind_run. cbn.
  rewrite (bind_returned _ _ g _ g (load_global_bound g _ _ H1)).
  rewrite (bind_returned _ _ g _ g (load_global_bound g _ _ H2)).
  reflexivity.
Qed.

Lemma test_eq_roots_discriminant_int a b c g :
  test_eq_roots_discriminant (VInt a) (VInt b) (VInt c) g =
  (Returned (VInt (b ^ 2 - 4 * a * c)), g).
Proof. reflexivity. Qed.

(** The value of [discriminant] is assigned and never read: on integers
    the statements before the assertion come down to the call statement. *)
Lemma test_eq_roots_setup_int (a b c : Z) (g : env) :
  test_eq_roots_setup (VInt a) (VInt b) (VInt c) g = test_eq_roots_call g.
Proof.
  unfold test_eq_roots_setup.
  rewrite (bind_returned _ _ _ _ _ (test_eq_roots_discriminant_int a b c g)).
  reflexivity.
Qed.

(** With [coefficients] unbound the call statement raises [NameError],
    for the callee when it is unbound too and for the argument otherwise. *)
Lemma test_eq_roots_call_unbound g :
  g !! "coefficients"%string = None ->
  exists name, test_eq_roots_call g = (Raised (NameError name), g).
Proof.
  intros Hc. unfold test_eq_roots_call.
  destruct (g !! "eq_roots"%string) as [f|] eqn:Hf.
  - exists "coefficients"%string.
    rewrite (bind_returned _ _ g _ g (load_global_bound g _ _ Hf)).
    apply bind_raised, load_global_unbound; [exact Hc | reflexivity].
  - exists "eq_roots"%string.
    apply bind_raised, load_global_unbound; [exact Hf | reflexivity].
Qed.

Lemma test_eq_roots_setup_notebook (a b c : Z) :
  test_eq_roots_setup (VInt a) (VInt b) (VInt c) notebook_globals =
  (Raised (NameError "coefficients"), notebook_globals).
Proof.
  unfold test_eq_roots_setup.
  rewrite (bind_returned _ _ _ _ _ (test_eq_roots_discriminant_int a b c _)).
  unfold test_eq_roots_call.
  rewrite (bind_returned _ _ _ _ _
             (load_global_bound _ _ _ (proj2 notebook_binds_functions))).
  apply bind_raised, load_global_unbound; reflexivity.
Qed.

(** The verdict of the property-based test is a function of the generated
    value alone, in every name space where [increment] names the notebook's
    function. *)
Lemma test_increment_verdict x g :
  g !! "increment"%string = Some (VFunction Fn_increment) ->
  run_example (test_increment x) g =
  if is_numeric x then Passed else Failed TypeError.
Proof.
  intros Hg. unfold run_example.
  destruct x as [n | b | | | items | f | m | o];
    try (rewrite (test_increment_bound _ _ Hg); py_run; reflexivity).
  - rewrite (test_increment_int n g Hg). reflexivity.
  - rewrite (test_increment_bound _ _ Hg). destruct b; py_run; reflexivity.
Qed.

(** ** The claims about [increment] *)

(** C1. For every integer [x], [increment(x)] is [x + 1]; the expression of
    the notebook's test, [increment(x) - 1 == x], evaluates to [True], and
    the test passes on [x], for every integer and not only for [10]. *)
Theorem increment_correct (x : Z) (g : env) :
  increment (VInt x) g = (Returned (VInt (x + 1)), g) /\
  (y ← increment (VInt x); d ← py_sub y (VInt 1); py_eq d (VInt x)) g =
    (Returned (VBool true), g) /\
  run_example (test_increment (VInt x)) notebook_globals = Passed.
Proof.
  split; [reflexivity | split].
  - py_run. unfold py_eq, ret. cbn.
    rewrite Z.add_simpl_r, Z.eqb_refl. reflexivity.
  - unfold run_example.
    rewrite test_increment_int; [reflexivity | apply notebook_binds_functions].
Qed.

(** Over any examples [given] may draw, the property-based test passes. *)
Lemma given_integers_test_increment (examples : list Z) :
  given_integers test_increment examples notebook_globals = Passed.
Proof.
  induction examples as [| x rest IH]; [reflexivity |].
  cbn [given_integers].
  rewrite test_increment_verdict by apply notebook_binds_functions.
  exact IH.
Qed.

(** The hand-picked example of the first test passes as well. *)
Example test_increment_example_passes :
  run_example test_increment_example notebook_globals = Passed.
Proof. reflexivity. Qed.

(** On the numbers among the values, [int] and [bool], [increment]
    returns a number, raises nothing, and leaves the name space, the only
    state in its reach, as it was. *)
Lemma increment_total_pure (x : value) (g : env) :
  is_numeric x = true ->
  exists v, increment x g = (Returned v, g) /\ is_numeric v = true.
Proof.
  intros Hx. destruct (as_int_numeric x Hx) as [n Hn].
  exists (VInt (n + 1)). split; [apply increment_numeric, Hn | reflexivity].
Qed.

(** C6, as the claim states it, fails.  A [Decimal] is a number, and on the
    signalling NaN [Decimal('sNaN')] the call [increment(x)] does not
    terminate normally: under the default context of [decimal] it raises
    [InvalidOperation]. *)
Lemma increment_decimal_snan_raises :
  is_number (ODecimal (DNaN true false 0)) = true /\
  increment_object default_context (ODecimal (DNaN true false 0))
      notebook_globals =
    (Raised InvalidOperation, notebook_globals).
Proof. split; reflexivity. Qed.

(** C6, amended.  [increment] has no error condition and no side effect on
    the numbers of Python's built-in types: for every [int], [bool],
    [float] or [complex] the call returns a number of a built-in type,
    raises nothing, and leaves the name space as it was, whatever the
    context of [decimal] is. *)
Theorem increment_builtin_numbers (ctx : decimal_context) (x : pyobject)
    (g : env) :
  is_builtin_number x = true ->
  exists y, increment_object ctx x g = (Returned y, g) /\
    is_builtin_number y = true.
Proof.
  intros Hx. destruct x as [v | f | re im | d]; cbn in Hx.
  - destruct (increment_total_pure v g Hx) as (w & Hw & Hnum).
    exists (OValue w). split; [| exact Hnum].
    cbn [increment_object]. rewrite (bind_returned _ _ _ _ _ Hw). reflexivity.
  - eexists. split; reflexivity.
  - eexists. split; reflexivity.
  - discriminate.
Qed.

Lemma increment_builtin_numbers_witness :
  is_builtin_number (OFloat 1.5) = true /\
  exists y, increment_object default_context (OFloat 1.5) notebook_globals =
              (Returned y, notebook_globals) /\
    is_builtin_number y = true.
Proof.
  split; [reflexivity |].
  apply (increment_builtin_numbers default_context (OFloat 1.5)
           notebook_globals).
  reflexivity.
Defined.

(** On the doubles the sum is the IEEE one: the largest finite double and
    the infinities are left where they are, and a NaN stays a NaN. *)
Example increment_float_edges :
  increment_object default_context (OFloat 0x1.fffffffffffffp1023)
      notebook_globals =
    (Returned (OFloat 0x1.fffffffffffffp1023), notebook_globals) /\
  increment_object default_context (OFloat (-infinity)) notebook_globals =
    (Returned (OFloat (-infinity)), notebook_globals) /\
  (exists f, increment_object default_context (OFloat nan) notebook_globals =
               (Returned (OFloat f), notebook_globals) /\
             PrimFloat.eqb f f = false).
Proof.
  split; [reflexivity | split; [reflexivity |]].
  eexists. split; reflexivity.
Qed.

(** C8. [increment] is strictly monotone and injective on the integers:
    [x < y] gives [increment(x) < increment(y)], and equal results come from
    equal arguments. *)
Theorem increment_strictly_monotone_injective (x y : Z) (g : env) :
  (x < y ->
   exists x' y',
     increment (VInt x) g = (Returned (VInt x'), g) /\
     increment (VInt y) g = (Returned (VInt y'), g) /\ x' < y') /\
  (increment (VInt x) g = increment (VInt y) g -> x = y).
Proof.
  split.
  - intros Hlt. exists (x + 1), (y + 1).
    split; [| split]; [| | lia]; apply increment_numeric; reflexivity.
  - intros Heq.
    rewrite (increment_numeric (VInt x) x g eq_refl) in Heq.
    rewrite (increment_numeric (VInt y) y g eq_refl) in Heq.
    inversion Heq. lia.
Qed.

Lemma increment_strictly_monotone_injective_witness :
  (exists x' y',
     increment (VInt (-1)) ∅ = (Returned (VInt x'), ∅) /\
     increment (VInt 2) ∅ = (Returned (VInt y'), ∅) /\ x' < y') /\
  (-1 = -1).
Proof.
  split.
  - apply (increment_strictly_monotone_injective (-1) 2 ∅). lia.
  - apply (increment_strictly_monotone_injective (-1) (-1) ∅). reflexivity.
Defined.

(** On ints and bools together the function is injective only up to
    Python's [==]: [True] and [1] are sent to the same [2]. *)
Example increment_bool_int g :
  increment (VBool true) g = increment (VInt 1) g /\
  py_eqb (VBool true) (VInt 1) = true.
Proof. split; reflexivity. Qed.

(** C9. [increment] is deterministic: two evaluations on equal arguments
    give equal results whatever the two name spaces hold, and two runs of
    the property-based test on the same generated value give the same
    verdict in any two name spaces where [increment] is the notebook's
    function. *)
Theorem increment_deterministic (x y : value) (g1 g2 : env) :
  x = y ->
  (increment x g1).1 = (increment y g2).1 /\
  (g1 !! "increment"%string = Some (VFunction Fn_increment) ->
   g2 !! "increment"%string = Some (VFunction Fn_increment) ->
   run_example (test_increment x) g1 = run_example (test_increment y) g2).
Proof.
  intros <-. split.
  - unfold increment, py_add.
    destruct (as_int x); [reflexivity |]. destruct x; reflexivity.
  - intros H1 H2. rewrite !test_increment_verdict by assumption. reflexivity.
Qed.

Lemma increment_deterministic_witness :
  (increment (VInt 3) notebook_globals).1 =
    (increment (VInt 3) (<["x" := VNone]> notebook_globals)).1 /\
  run_example (test_increment (VInt 3)) notebook_globals =
    run_example (test_increment (VInt 3)) (<["x" := VNone]> notebook_globals).
Proof.
  destruct (increment_deterministic (VInt 3) (VInt 3) notebook_globals
              (<["x" := VNone]> notebook_globals) eq_refl) as [Hv Ht].
  split; [exact Hv | apply Ht; reflexivity].
Defined.

(** ** The claims about [eq_roots] and [test_eq_roots] *)

(** C4. [eq_roots] is unimplemented: whatever its argument, the call
    produces no value; it raises [NameError] for [root1], the first of the
    two names its [return] statement reads and nothing binds. *)
Theorem eq_roots_unimplemented (coefficients : value) :
  eq_roots coefficients notebook_globals =
    (Raised (NameError "root1"), notebook_globals) /\
  forall roots, (eq_roots coefficients notebook_globals).1 <> Returned roots.
Proof.
  assert (Hrun : eq_roots coefficients notebook_globals =
                 (Raised (NameError "root1"), notebook_globals)).
  { apply eq_roots_unbound_root1, notebook_unbound. set_solver. }
  split; [exact Hrun |].
  intros roots. rewrite Hrun. discriminate.
Qed.

(** The second name is as unbound as the first: binding [root1] alone moves
    the error to [root2]. *)
Example eq_roots_root2 coefficients :
  eq_roots coefficients (<["root1" := VInt 0]> notebook_globals) =
  (Raised (NameError "root2"), <["root1" := VInt 0]> notebook_globals).
Proof. reflexivity. Qed.

(** C2 fails on the code.  At the quadratic [x^2 - 3x + 2] the
    discriminant is [1] and the real roots are [2] and [1], yet the stub
    hands back no pair of roots: the call raises [NameError]. *)
Example eq_roots_x2_3x_2 :
  test_eq_roots_discriminant (VInt 1) (VInt (-3)) (VInt 2) notebook_globals =
    (Returned (VInt 1), notebook_globals) /\
  quadratic 1 (-3) 2 2 = 0%R /\ quadratic 1 (-3) 2 1 = 0%R /\
  eq_roots (VTuple [VInt 1; VInt (-3); VInt 2]) notebook_globals =
    (Raised (NameError "root1"), notebook_globals).
Proof.
  split; [reflexivity | split; [| split]].
  - unfold quadratic. lra.
  - unfold quadratic. lra.
  - reflexivity.
Qed.

(** C7. For all integers [a], [b], [c] the value the test assigns to
    [discriminant] is exactly [b*b - 4*a*c], computed in unbounded integers:
    the assignment raises nothing and the test moves on to its next
    statement. *)
Theorem discriminant_exact (a b c : Z) (g : env) :
  test_eq_roots_discriminant (VInt a) (VInt b) (VInt c) g =
    (Returned (VInt (b * b - 4 * a * c)), g) /\
  test_eq_roots_setup (VInt a) (VInt b) (VInt c) g = test_eq_roots_call g.
Proof.
  split.
  - rewrite test_eq_roots_discriminant_int, Z.pow_2_r. reflexivity.
  - apply test_eq_roots_setup_int.
Qed.

(** The sign of that value is what the notebook's text says it is: the
    quadratic has a real root exactly when the discriminant is not
    negative. *)
Lemma complete_square (a b c : Z) (x : R) :
  (4 * IZR a * quadratic a b c x =
   (2 * IZR a * x + IZR b) ^ 2 - IZR (b * b - 4 * a * c))%R.
Proof. unfold quadratic. rewrite minus_IZR, !mult_IZR. simpl. ring. Qed.

Lemma discriminant_decides_real_roots (a b c d : Z) (g : env) :
  a <> 0 ->
  test_eq_roots_discriminant (VInt a) (VInt b) (VInt c) g =
    (Returned (VInt d), g) ->
  (exists x : R, quadratic a b c x = 0%R) <-> 0 <= d.
Proof.
  intros Ha Hrun.
  rewrite test_eq_roots_discriminant_int, Z.pow_2_r in Hrun.
  injection Hrun as <-.
  split.
  - intros [x Hx].
    destruct (Z_lt_le_dec (b * b - 4 * a * c) 0) as [Hneg | Hpos];
      [exfalso | exact Hpos].
    apply IZR_lt in Hneg.
    pose proof (complete_square a b c x) as Hsq. rewrite Hx in Hsq.
    pose proof (pow2_ge_0 (2 * IZR a * x + IZR b)) as Hge.
    lra.
  - intros Hd. apply IZR_le in Hd.
    set (D := IZR (b * b - 4 * a * c)) in *.
    assert (Ha' : IZR a <> 0%R) by (apply not_0_IZR; exact Ha).
    exists ((- IZR b + sqrt D) / (2 * IZR a))%R.
    apply (Rmult_eq_reg_l (4 * IZR a)); [| lra].
    rewrite complete_square. fold D.
    replace (2 * IZR a * ((- IZR b + sqrt D) / (2 * IZR a)) + IZR b)%R
      with (sqrt D) by (field; exact Ha').
    rewrite <- (sqrt_sqrt D) at 2 by exact Hd. ring.
Qed.

(** No bound on the operands: the product is exact where a 64-bit
    multiplication would have wrapped around. *)
Example discriminant_large g :
  test_eq_roots_discriminant (VInt (2 ^ 62)) (VInt (2 ^ 64)) (VInt (-1)) g =
  (Returned (VInt (2 ^ 128 + 2 ^ 64)), g).
Proof. reflexivity. Qed.

(** C10. The test calls [eq_roots(coefficients)] with [coefficients] bound
    nowhere: on every generated triple the run ends in [NameError] for that
    name, at the call statement, and the assertion is not reached. *)
Theorem test_eq_roots_name_error (a b c : Z) :
  test_eq_roots (VInt a) (VInt b) (VInt c) notebook_globals =
    (Raised (NameError "coefficients"), notebook_globals) /\
  assertion_reached (VInt a) (VInt b) (VInt c) notebook_globals = false.
Proof.
  split.
  - unfold test_eq_roots.
    apply bind_raised, test_eq_roots_setup_notebook.
  - unfold assertion_reached. rewrite test_eq_roots_setup_notebook.
    reflexivity.
Qed.

(** The same in any name space that leaves [coefficients] unbound, also one
    that does not know [eq_roots]. *)
Lemma test_eq_roots_unbound (a b c : Z) (g : env) :
  g !! "coefficients"%string = None ->
  exists name,
    test_eq_roots (VInt a) (VInt b) (VInt c) g = (Raised (NameError name), g).
Proof.
  intros Hc. destruct (test_eq_roots_call_unbound g Hc) as [name Hname].
  exists name. unfold test_eq_roots, test_eq_roots_setup.
  apply bind_raised.
  rewrite (bind_returned _ _ _ _ _ (test_eq_roots_discriminant_int a b c g)).
  exact Hname.
Qed.

(** C5, as the claim states it, fails.  On the triple [(1, 0, 1)] the
    discriminant is [-4], and the example is not filtered out: the run goes
    past the commented [assume] line to the call and fails there. *)
Lemma test_eq_roots_negative_not_filtered :
  test_eq_roots_discriminant (VInt 1) (VInt 0) (VInt 1) notebook_globals =
    (Returned (VInt (-4)), notebook_globals) /\
  -4 < 0 /\
  run_example (test_eq_roots (VInt 1) (VInt 0) (VInt 1)) notebook_globals =
    Failed (NameError "coefficients") /\
  run_example (test_eq_roots (VInt 1) (VInt 0) (VInt 1)) notebook_globals <>
    Filtered.
Proof.
  split; [reflexivity | split; [lia | split]].
  - reflexivity.
  - discriminate.
Qed.

(** C5, amended.  The test as written has no filter: the line with
    [assume] is a comment, the discriminant is computed and never looked at,
    and the run of the test is the same for every generated triple, of
    negative discriminant or not.  Whether the example is filtered out and
    whether the assertion is reached do not depend on the triple. *)
Theorem test_eq_roots_ignores_discriminant (a b c a' b' c' : Z) (g : env) :
  test_eq_roots (VInt a) (VInt b) (VInt c) g =
    test_eq_roots (VInt a') (VInt b') (VInt c') g /\
  run_example (test_eq_roots (VInt a) (VInt b) (VInt c)) g =
    run_example (test_eq_roots (VInt a') (VInt b') (VInt c')) g /\
  assertion_reached (VInt a) (VInt b) (VInt c) g =
    assertion_reached (VInt a') (VInt b') (VInt c') g.
Proof.
  assert (Hsame : test_eq_roots (VInt a) (VInt b) (VInt c) g =
                  test_eq_roots (VInt a') (VInt b') (VInt c') g).
  { unfold test_eq_roots. rewrite !bind_run, !test_eq_roots_setup_int.
    reflexivity. }
  split; [exact Hsame | split].
  - unfold run_example. rewrite Hsame. reflexivity.
  - unfold assertion_reached. rewrite !test_eq_roots_setup_int. reflexivity.
Qed.

(** In the notebook's name space no triple at all is filtered out. *)
Lemma test_eq_roots_never_filtered (a b c : Z) :
  run_example (test_eq_roots (VInt a) (VInt b) (VInt c)) notebook_globals =
  Failed (NameError "coefficients").
Proof.
  unfold run_example, test_eq_roots.
  rewrite (bind_raised _ _ _ _ _ (test_eq_roots_setup_notebook a b c)).
  reflexivity.
Qed.

(** It is the unbound names alone that keep the assertion from running: in
    a name space that binds them, a triple of negative discriminant reaches
    the assertion, for nothing in the test looks at the discriminant. *)
Example assertion_reached_negative_discriminant :
  test_eq_roots_discriminant (VInt 1) (VInt 0) (VInt 1) bound_globals =
    (Returned (VInt (-4)), bound_globals) /\
  assertion_reached (VInt 1) (VInt 0) (VInt 1) bound_globals = true /\
  run_example (test_eq_roots (VInt 1) (VInt 0) (VInt 1)) bound_globals = Passed.
Proof. split; [| split]; reflexivity. Qed.

(** With the line uncommented and completed as the notebook asks,
    [assume(discriminant >= 0)], the same triple would be filtered out. *)
Example assume_filters_negative g :
  run_example (t ← py_ge (VInt (-4)) (VInt 0); assume t) g = Filtered.
Proof. reflexivity. Qed.

(** * Further properties of the notebook's code *)

(** ** [increment] on the values of the embedding and under composition *)

(** X1. [increment] on the values of the embedding: an [int] or a [bool]
    gives the integer one above it, [bool] counting as [0] and [1]; [None],
    [Ellipsis], a tuple (the empty one too), a function, a module or an
    opaque object raises [TypeError]; in both cases the name space is handed
    back unchanged.  (Numbers of other types are the matter of
    [increment_object].) *)
Theorem increment_every_value (x : value) (g : env) :
  increment x g =
  (match as_int x with
   | Some n => Returned (VInt (n + 1))
   | None => Raised TypeError
   end, g).
Proof.
  destruct (as_int x) as [n|] eqn:Hx.
  - apply increment_numeric, Hx.
  - unfold increment, py_add. rewrite Hx. destruct x; reflexivity.
Qed.

(** X2. [n] successive calls of [increment] on an integer add [n] to it,
    for every [n] and every integer, however large. *)
Theorem increment_times_adds (n : nat) (x : Z) (g : env) :
  increment_times n (VInt x) g = (Returned (VInt (x + Z.of_nat n)), g).
Proof.
  revert x. induction n as [| n IH]; intros x.
  - cbn. unfold ret. rewrite Z.add_0_r. reflexivity.
  - cbn [increment_times].
    rewrite (bind_returned _ _ g _ g (increment_numeric (VInt x) x g eq_refl)).
    rewrite IH. f_equal. f_equal. f_equal. lia.
Qed.

(** ** [test_increment] *)

(** X3. Where [increment] names the notebook's function, the property-based
    test on a value of the embedding passes exactly when the value is an
    [int] or a [bool]; on [None], [Ellipsis], a tuple, a function, a module
    or an opaque object it fails with the [TypeError] of [x + 1], not with an
    assertion error. *)
Theorem test_increment_passes_iff_numeric (x : value) (g : env) :
  g !! "increment"%string = Some (VFunction Fn_increment) ->
  (run_example (test_increment x) g = Passed <-> is_numeric x = true) /\
  (is_numeric x = false ->
   run_example (test_increment x) g = Failed TypeError).
Proof.
  intros Hg. rewrite (test_increment_verdict x g Hg).
  destruct (is_numeric x); split; try split; try discriminate; reflexivity.
Qed.

Lemma test_increment_passes_iff_numeric_witness :
  (run_example (test_increment (VBool false)) notebook_globals = Passed <->
   is_numeric (VBool false) = true) /\
  run_example (test_increment (VTuple [])) notebook_globals = Failed TypeError.
Proof.
  split.
  - apply (test_increment_passes_iff_numeric (VBool false) notebook_globals).
    reflexivity.
  - apply (test_increment_passes_iff_numeric (VTuple []) notebook_globals);
      reflexivity.
Defined.

(** X4. The test reads [increment] from the module's name space when it
    runs: in a module that does not bind the name the test raises
    [NameError] for it on every argument, before anything is computed. *)
Theorem test_increment_unbound (x : value) (g : env) :
  g !! "increment"%string = None ->
  test_increment x g = (Raised (NameError "increment"), g).
Proof.
  intros Hg. unfold test_increment.
  apply bind_raised, load_global_unbound; [exact Hg | reflexivity].
Qed.

Lemma test_increment_unbound_witness :
  test_increment (VInt 10) (delete "increment"%string notebook_globals) =
  (Raised (NameError "increment"), delete "increment"%string notebook_globals).
Proof.
  apply (test_increment_unbound (VInt 10)
           (delete "increment"%string notebook_globals)).
  reflexivity.
Defined.

(** X5. Under [given(st.integers())] the test passes whatever integers are
    drawn and however many, the empty draw included, in every name space
    where [increment] names the notebook's function. *)
Theorem given_integers_passes (examples : list Z) (g : env) :
  g !! "increment"%string = Some (VFunction Fn_increment) ->
  given_integers test_increment examples g = Passed.
Proof.
  intros Hg. induction examples as [| x rest IH]; [reflexivity |].
  cbn [given_integers].
  rewrite (test_increment_verdict (VInt x) g Hg). exact IH.
Qed.

Lemma given_integers_passes_witness :
  given_integers test_increment [0; -1; 2 ^ 64] notebook_globals = Passed.
Proof.
  apply (given_integers_passes [0; -1; 2 ^ 64] notebook_globals).
  reflexivity.
Defined.

(** ** [eq_roots] in any name space *)

Lemma eq_roots_run (coefficients : value) (g : env) :
  eq_roots coefficients g =
  (match g !! "root1"%string, g !! "root2"%string with
   | Some v1, Some v2 => Returned (VTuple [v1; v2])
   | Some _, None => Raised (NameError "root2")
   | None, _ => Raised (NameError "root1")
   end, g).
Proof.
  destruct (g !! "root1"%string) as [v1|] eqn:H1.
  - destruct (g !! "root2"%string) as [v2|] eqn:H2.
    + apply eq_roots_bound; assumption.
    + unfold eq_roots. rewrite bind_run. cbn.
      rewrite (bind_returned _ _ g _ g (load_global_bound g _ _ H1)).
      apply bind_raised, load_global_unbound; [exact H2 | reflexivity].
  - apply eq_roots_unbound_root1, H1.
Qed.

(** X6. The stub never writes the name space, and it returns exactly when
    the module binds both [root1] and [root2]; what it returns is then the
    pair of those two globals, whatever coefficients it was given. *)
Theorem eq_roots_returns_iff_bound (coefficients roots : value) (g : env) :
  (eq_roots coefficients g).2 = g /\
  ((eq_roots coefficients g).1 = Returned roots <->
   exists v1 v2,
     g !! "root1"%string = Some v1 /\ g !! "root2"%string = Some v2 /\
     roots = VTuple [v1; v2]).
Proof.
  rewrite eq_roots_run. split; [reflexivity |]. cbn [fst].
  destruct (g !! "root1"%string) as [v1|], (g !! "root2"%string) as [v2|];
    split.
  - intros Hr. injection Hr as <-. eauto.
  - intros (w1 & w2 & Hw1 & Hw2 & ->). congruence.
  - discriminate.
  - intros (w1 & w2 & _ & Hw2 & _). discriminate.
  - discriminate.
  - intros (w1 & w2 & Hw1 & _). discriminate.
  - discriminate.
  - intros (w1 & w2 & Hw1 & _). discriminate.
Qed.

(** ** The discriminant of [test_eq_roots] *)

Lemma py_tuple_repeat_cases (xs : list value) (n : Z) (g : env) :
  (exists ys, py_tuple_repeat xs n g = (Returned (VTuple ys), g)) \/
  py_tuple_repeat xs n g = (Raised OverflowError, g) \/
  py_tuple_repeat xs n g = (Raised MemoryError, g).
Proof.
  unfold py_tuple_repeat.
  destruct ((n <? - 2 ^ 63) || (py_ssize_t_max <? n)); [right; left; reflexivity |].
  cbv zeta.
  destruct ((Z.of_nat (length xs) =? 0) || (Z.max n 0 =? 1));
    [left; eexists; reflexivity |].
  destruct (py_ssize_t_max / Z.of_nat (length xs) <? Z.max n 0);
    [right; right; reflexivity |].
  destruct ((py_ssize_t_max - 32 - 8) / 8 <? Z.of_nat (length xs) * Z.max n 0);
    [right; right; reflexivity | left; eexists; reflexivity].
Qed.

(** A product is an integer when both operands are numbers; otherwise it is
    a tuple or an exception, and never touches the name space. *)
Lemma py_mul_cases (x y : value) (g : env) :
  (exists a b, as_int x = Some a /\ as_int y = Some b /\
     py_mul x y g = (Returned (VInt (a * b)), g)) \/
  ((as_int x = None \/ as_int y = None) /\
   ((exists ys, py_mul x y g = (Returned (VTuple ys), g)) \/
    (exists e, mul_error x y e /\ py_mul x y g = (Raised e, g)))).
Proof.
  unfold py_mul, mul_error.
  destruct (as_int x) as [a|] eqn:Hx, (as_int y) as [b|] eqn:Hy.
  - left. eauto.
  - right. split; [right; reflexivity |].
    destruct y; try (right; eexists; split; [left |]; reflexivity).
    destruct (py_tuple_repeat_cases items a g) as [[ys ->] | [-> | ->]];
      [left; eauto | right; eexists; split; [right | reflexivity] ..];
      (split; [destruct (is_tuple x); reflexivity | auto]).
  - right. split; [left; reflexivity |].
    destruct x; try (right; eexists; split; [left |]; reflexivity).
    destruct (py_tuple_repeat_cases items b g) as [[ys ->] | [-> | ->]];
      [left; eauto | right; eexists; split; [right | reflexivity] ..];
      (split; [reflexivity | auto]).
  - right. split; [left; reflexivity |].
    right. eexists. split; [left |]; reflexivity.
Qed.

(** X7. The expression [b**2 - 4*a*c] on any three values of the embedding
    (ints, bools, [None], [Ellipsis], tuples, functions, modules, opaque
    objects): it returns exactly when all three are numbers, and then the
    integer [b^2 - 4ac], [bool] counting as [0] and [1]; in every other case
    it raises, [TypeError] unless [a] or [c] is a tuple, whose repetition
    can also end in [OverflowError] or [MemoryError].  The name space is
    left as it was. *)
Theorem discriminant_every_value (a b c : value) (g : env) :
  exists e,
    (e = TypeError \/
     (is_tuple a || is_tuple c = true /\
      (e = OverflowError \/ e = MemoryError))) /\
    test_eq_roots_discriminant a b c g =
    (match as_int a, as_int b, as_int c with
     | Some x, Some y, Some z => Returned (VInt (y ^ 2 - 4 * x * z))
     | _, _, _ => Raised e
     end, g).
Proof.
  unfold test_eq_roots_discriminant.
  destruct (as_int b) as [y|] eqn:Hb.
  2:{ exists TypeError. split; [left; reflexivity |].
      assert (Hpow : py_pow b (VInt 2) g = (Raised TypeError, g)).
      { unfold py_pow. rewrite Hb. reflexivity. }
      rewrite (bind_raised _ _ _ _ _ Hpow).
      destruct (as_int a); reflexivity. }
  assert (Hpow : py_pow b (VInt 2) g = (Returned (VInt (y ^ 2)), g)).
  { unfold py_pow. rewrite Hb. reflexivity. }
  rewrite (bind_returned _ _ _ _ _ Hpow).
  destruct (py_mul_cases (VInt 4) a g)
    as [(n4 & x & Hn4 & Hx & Ha4) | [Hnone [[xs Ha4] | (e & He & Ha4)]]].
  - injection Hn4 as <-.
    rewrite (bind_returned _ _ _ _ _ Ha4), Hx.
    destruct (py_mul_cases (VInt (4 * x)) c g)
      as [(n & z & Hn & Hz & Hac) | [Hnone [[zs Hac] | (e & He & Hac)]]].
    + injection Hn as <-. exists TypeError. split; [left; reflexivity |].
      rewrite (bind_returned _ _ _ _ _ Hac), Hz. reflexivity.
    + destruct Hnone as [Hnone | Hnone]; [discriminate |].
      exists TypeError. split; [left; reflexivity |].
      rewrite (bind_returned _ _ _ _ _ Hac), Hnone. reflexivity.
    + destruct Hnone as [Hnone | Hnone]; [discriminate |].
      exists e. split.
      * destruct He as [He | [Ht He]]; [left; exact He | right].
        split; [| exact He]. cbn in Ht. rewrite Ht. apply orb_true_r.
      * rewrite (bind_raised _ _ _ _ _ Hac), Hnone. reflexivity.
  - destruct Hnone as [Hnone | Hnone]; [discriminate |].
    rewrite (bind_returned _ _ _ _ _ Ha4), Hnone.
    destruct (py_mul_cases (VTuple xs) c g)
      as [(n & z & Hn & _) | [_ [[zs Hac] | (e & He & Hac)]]];
      [discriminate | |].
    + exists TypeError. split; [left; reflexivity |].
      rewrite (bind_returned _ _ _ _ _ Hac). reflexivity.
    + assert (Ha : is_tuple a = true).
      { destruct a; try reflexivity; cbn in Ha4; discriminate. }
      exists e. split.
      * destruct He as [He | [_ He]]; [left; exact He | right].
        split; [rewrite Ha; reflexivity | exact He].
      * rewrite (bind_raised _ _ _ _ _ Hac). reflexivity.
  - destruct Hnone as [Hnone | Hnone]; [discriminate |].
    exists e. split.
    + destruct He as [He | [Ht He]]; [left; exact He | right].
      split; [| exact He]. cbn in Ht. rewrite Ht. reflexivity.
    + rewrite (bind_raised _ _ _ _ _ Ha4), Hnone. reflexivity.
Qed.

(** X8. What the notebook's text says of the sign of the discriminant, for
    the value the test computes and a quadratic with [a <> 0]: negative, no
    real root; zero, one real root and no other; positive, two different
    real roots. *)
Theorem discriminant_counts_real_roots (a b c d : Z) (g : env) :
  a <> 0 ->
  test_eq_roots_discriminant (VInt a) (VInt b) (VInt c) g =
    (Returned (VInt d), g) ->
  (d < 0 -> forall x : R, quadratic a b c x <> 0%R) /\
  (d = 0 ->
   exists x : R, quadratic a b c x = 0%R /\
     forall y : R, quadratic a b c y = 0%R -> y = x) /\
  (0 < d ->
   exists x y : R, x <> y /\ quadratic a b c x = 0%R /\
     quadratic a b c y = 0%R).
Proof.
  intros Ha Hrun.
  rewrite test_eq_roots_discriminant_int, Z.pow_2_r in Hrun.
  injection Hrun as <-.
  assert (Ha' : IZR a <> 0%R) by (apply not_0_IZR; exact Ha).
  set (D := IZR (b * b - 4 * a * c)).
  assert (Hsq : forall x, (4 * IZR a * quadratic a b c x =
                           (2 * IZR a * x + IZR b) ^ 2 - D)%R)
    by (intros x; apply complete_square).
  assert (Hroot : forall s : R, (s ^ 2 = D)%R ->
            quadratic a b c ((- IZR b + s) / (2 * IZR a)) = 0%R).
  { intros s Hs. apply (Rmult_eq_reg_l (4 * IZR a)); [| lra].
    rewrite Hsq.
    replace (2 * IZR a * ((- IZR b + s) / (2 * IZR a)) + IZR b)%R with s
      by (field; exact Ha').
    lra. }
  split; [| split].
  - intros Hneg x Hx. apply IZR_lt in Hneg. fold D in Hneg.
    pose proof (Hsq x) as Hx'. rewrite Hx in Hx'.
    pose proof (pow2_ge_0 (2 * IZR a * x + IZR b)). lra.
  - intros Hzero. assert (HD : D = 0%R) by (unfold D; rewrite Hzero; reflexivity).
    exists ((- IZR b + 0) / (2 * IZR a))%R. split.
    + apply Hroot. rewrite HD. simpl. apply Rmult_0_l.
    + intros y Hy. pose proof (Hsq y) as Hy'. rewrite Hy, HD in Hy'.
      assert (Hlin : (2 * IZR a * y + IZR b = 0)%R) by nra.
      apply (Rmult_eq_reg_l (2 * IZR a)); [| lra].
      replace (2 * IZR a * ((- IZR b + 0) / (2 * IZR a)))%R with (- IZR b)%R
        by (field; exact Ha').
      lra.
  - intros Hpos. apply IZR_lt in Hpos. fold D in Hpos.
    assert (Hs : (0 < sqrt D)%R) by (apply sqrt_lt_R0; exact Hpos).
    assert (Hss : (sqrt D ^ 2 = D)%R).
    { simpl. rewrite Rmult_1_r. apply sqrt_sqrt. lra. }
    exists ((- IZR b + sqrt D) / (2 * IZR a))%R,
           ((- IZR b + - sqrt D) / (2 * IZR a))%R.
    split; [| split].
    + intros Heq.
      apply (Rmult_eq_compat_l (2 * IZR a)) in Heq.
      replace (2 * IZR a * ((- IZR b + sqrt D) / (2 * IZR a)))%R
        with (- IZR b + sqrt D)%R in Heq by (field; exact Ha').
      replace (2 * IZR a * ((- IZR b + - sqrt D) / (2 * IZR a)))%R
        with (- IZR b + - sqrt D)%R in Heq by (field; exact Ha').
      lra.
    + apply Hroot, Hss.
    + apply Hroot.
      replace ((- sqrt D) ^ 2)%R with (sqrt D ^ 2)%R by (simpl; ring).
      exact Hss.
Qed.

Lemma discriminant_counts_real_roots_witness :
  exists x y : R, x <> y /\ quadratic 1 (-3) 2 x = 0%R /\
    quadratic 1 (-3) 2 y = 0%R.
Proof.
  apply (discriminant_counts_real_roots 1 (-3) 2 1 notebook_globals);
    [lia | reflexivity | lia].
Defined.

(** ** [test_eq_roots] in any name space *)



(** X9. The call statement resolves its callee before its argument: where
    [eq_roots] is unbound the test raises [NameError] for [eq_roots],
    whether or not [coefficients] is bound; where [eq_roots] is bound and
    [coefficients] is not, it raises [NameError] for [coefficients]. *)
Theorem test_eq_roots_callee_first (a b c : Z) (g : env) :
  (g !! "eq_roots"%string = None ->
   test_eq_roots (VInt a) (VInt b) (VInt c) g =
     (Raised (NameError "eq_roots"), g)) /\
  (is_Some (g !! "eq_roots"%string) -> g !! "coefficients"%string = None ->
   test_eq_roots (VInt a) (VInt b) (VInt c) g =
     (Raised (NameError "coefficients"), g)).
Proof.
  split.
  - intros Hf. unfold test_eq_roots. apply bind_raised.
    rewrite test_eq_roots_setup_int. unfold test_eq_roots_call.
    apply bind_raised, load_global_unbound; [exact Hf | reflexivity].
  - intros [f Hf] Hc. unfold test_eq_roots. apply bind_raised.
    rewrite test_eq_roots_setup_int. unfold test_eq_roots_call.
    rewrite (bind_returned _ _ g _ g (load_global_bound g _ _ Hf)).
    apply bind_raised, load_global_unbound; [exact Hc | reflexivity].
Qed.

Lemma test_eq_roots_callee_first_witness :
  test_eq_roots (VInt 1) (VInt 0) (VInt 1)
      (<["coefficients" := VNone]> ∅) =
    (Raised (NameError "eq_roots"), <["coefficients" := VNone]> ∅) /\
  test_eq_roots (VInt 1) (VInt 0) (VInt 1) notebook_globals =
    (Raised (NameError "coefficients"), notebook_globals).
Proof.
  split.
  - apply (test_eq_roots_callee_first 1 0 1 (<["coefficients" := VNone]> ∅)).
    reflexivity.
  - apply (test_eq_roots_callee_first 1 0 1 notebook_globals);
      [eexists; reflexivity | reflexivity].
Defined.





(** ** The formula of the text *)

Lemma printed_root_factor (a b c : Z) (plus : bool) :
  a <> 0 -> 0 <= b * b - 4 * a * c ->
  let s := sqrt (IZR (b * b - 4 * a * c)) in
  let t := if plus then s else (- s)%R in
  (4 * IZR a * quadratic a b c (printed_root a b c plus) =
   (IZR b - IZR a) * (IZR b - IZR a + 2 * t))%R.
Proof.
  intros Ha Hd s t.
  assert (Ha' : IZR a <> 0%R) by (apply not_0_IZR; exact Ha).
  assert (Hs : (s * s = IZR (b * b - 4 * a * c))%R)
    by (apply sqrt_sqrt, IZR_le, Hd).
  assert (Ht : (t * t = IZR (b * b - 4 * a * c))%R)
    by (unfold t; destruct plus; lra).
  rewrite complete_square.
  replace (2 * IZR a * printed_root a b c plus + IZR b)%R
    with (IZR b - IZR a + t)%R
    by (unfold printed_root; fold s; fold t; field; exact Ha').
  simpl. rewrite <- Ht. ring.
Qed.

(** X12. The formula as the notebook prints it has [-a] where the quadratic
    formula has [-b]: for [a <> 0] and a discriminant that is not negative,
    its two values are both roots of [a x^2 + b x + c] exactly when
    [a = b]. *)
Theorem printed_root_is_root_iff (a b c : Z) :
  a <> 0 -> 0 <= b * b - 4 * a * c ->
  (quadratic a b c (printed_root a b c true) = 0%R /\
   quadratic a b c (printed_root a b c false) = 0%R) <-> a = b.
Proof.
  intros Ha Hd.
  assert (Ha' : IZR a <> 0%R) by (apply not_0_IZR; exact Ha).
  pose proof (printed_root_factor a b c true Ha Hd) as Hp.
  pose proof (printed_root_factor a b c false Ha Hd) as Hm.
  cbv zeta in Hp, Hm.
  set (s := sqrt (IZR (b * b - 4 * a * c))) in *.
  split.
  - intros [Hx Hy]. rewrite Hx in Hp. rewrite Hy in Hm.
    apply eq_IZR. nra.
  - intros <-. split.
    + apply (Rmult_eq_reg_l (4 * IZR a)); [rewrite Hp; ring | lra].
    + apply (Rmult_eq_reg_l (4 * IZR a)); [rewrite Hm; ring | lra].
Qed.

Lemma printed_root_is_root_iff_witness :
  ~ (quadratic 1 (-3) 2 (printed_root 1 (-3) 2 true) = 0%R /\
     quadratic 1 (-3) 2 (printed_root 1 (-3) 2 false) = 0%R).
Proof.
  intros Hroots.
  apply (printed_root_is_root_iff 1 (-3) 2) in Hroots; [discriminate | lia | lia].
Defined.
